(** * dl::optional_reference: a shallow embedding of the header and its checked properties

    The repository holds one class template, [dl::optional_reference<T>], in
    two versions: [src/optional_reference.hpp] (with raw-pointer construction,
    the const conversion operator and [ptr]) and [src/unnamed/part_000] (the
    earlier, smaller one).  Both are embedded below, member by member, in a
    small state-and-outcome monad; the theorems follow the definitions. *)

From Stdlib Require Import ZArith NArith PArith Bool.
From stdpp Require Import base gmap strings.

Local Open Scope Z_scope.

(** ** Addresses

    A reference [T&] designates an object, so it is a location; a pointer
    [T*] is either [nullptr] or the address of a location. *)

Abbreviation loc := positive (only parsing).
Abbreviation pointer := N (only parsing).

Definition nullptr : pointer := 0%N.

(** [std::addressof(reference)] *)
Definition addressof (reference : loc) : pointer := Npos reference.

(** The conversion [T* -> bool] used by [return m_ptr;] in a function
    returning [bool], by [if (!m_ptr)] and by [assert(m_ptr)]. *)
Definition bool_of_pointer (p : pointer) : bool := negb (N.eqb p 0%N).

(** ** Element types

    [optional_reference<T>] and [optional_reference<const T>] are different
    classes; the element type is kept as an index of the wrapper. *)

Inductive cv : Type := Mutable | Const.

(** [Tclass] stands for a class type, other than [nullref_t], with no
    converting constructor. *)
Inductive base_type : Type :=
| Tbool
| Tint
| Tclass (name : string).

Record ctype : Type := Ty { qual : cv; base : base_type }.

(** [const T] *)
Definition add_const (T : ctype) : ctype := Ty Const (base T).

(** ** Program state and outcomes *)

(** The objects other than the wrapper, by location. *)
Abbreviation heap := (gmap positive Z) (only parsing).

(** class bad_optional_reference_access : public std::exception *)
Inductive exception : Type := bad_optional_reference_access.

Definition what (e : exception) : string :=
  match e with
  | bad_optional_reference_access => "bad optional reference access"
  end.

(** class nullref_t {}; inline constexpr nullref_t nullref; *)
Inductive nullref_t : Type := nullref.

(** How a call ends: it returns, it throws, a failed [assert] aborts the
    program, it has undefined behaviour, or the compiler rejects it. *)
Inductive outcome (A : Type) : Type :=
| Returns (a : A)
| Throws (e : exception)
| Aborts
| Undefined
| IllFormed.

Arguments Returns {A} a.
Arguments Throws {A} e.
Arguments Aborts {A}.
Arguments Undefined {A}.
Arguments IllFormed {A}.

(** A computation over a state [S]: the state is threaded through every
    outcome, so that what a throwing call leaves behind can be stated. *)
Definition M (S A : Type) : Type := S -> outcome A * S.

Definition ret {S A} (a : A) : M S A := fun s => (Returns a, s).

Definition bind {S A B} (k : A -> M S B) (c : M S A) : M S B :=
  fun s =>
    match c s with
    | (Returns a, s') => k a s'
    | (Throws e, s') => (Throws e, s')
    | (Aborts, s') => (Aborts, s')
    | (Undefined, s') => (Undefined, s')
    | (IllFormed, s') => (IllFormed, s')
    end.

Definition throw {S A} (e : exception) : M S A := fun s => (Throws e, s).
Definition abort {S A} : M S A := fun s => (Aborts, s).
Definition undefined {S A} : M S A := fun s => (Undefined, s).
Definition ill_formed {S A} : M S A := fun s => (IllFormed, s).

#[global] Instance M_ret {S} : MRet (M S) := fun A => @ret S A.
#[global] Instance M_bind {S} : MBind (M S) := fun A B => @bind S A B.

(** The state a member function runs in: the object it is called on and the
    heap. *)
Record state (Obj : Type) : Type := St { self : Obj; mem : heap }.

Arguments St {Obj} self mem.
Arguments self {Obj} s.
Arguments mem {Obj} s.

(** A free function or constructor call made from inside a member
    function: it sees the heap only. *)
Definition lift {Obj A} (f : M heap A) : M (state Obj) A :=
  fun s => let (o, h) := f (mem s) in (o, St (self s) h).

(** [assert(c)] from <cassert>: expands to nothing when [NDEBUG] is defined,
    and otherwise aborts the program when [c] is false. *)
Definition assert {S} (NDEBUG : bool) (c : bool) : M S unit :=
  if NDEBUG then ret tt else if c then ret tt else abort.

(** [*p]: the lvalue designating the object at [p]; there is none at
    [nullptr]. *)
Definition deref {S} (p : pointer) : M S loc :=
  match p with
  | N0 => undefined
  | Npos l => ret l
  end.

(** Reading the value of the object an lvalue designates. *)
Definition load (l : loc) : M heap Z :=
  fun h => match h !! l with
           | Some v => (Returns v, h)
           | None => (Undefined, h)
           end.

(** A temporary object holding [v]: fresh storage, away from the object
    [this] and from every object of the heap. *)
Definition materialize (this : loc) (v : Z) : M heap loc :=
  fun h => let l := fresh ({[this]} ∪ dom h) in (Returns l, <[l := v]> h).

(** The end of the temporary's lifetime. *)
Definition destroy (l : loc) : M heap unit :=
  fun h => (Returns tt, delete l h).

(** ** The class template of [src/optional_reference.hpp] *)

Module Extended.

(** private: T* m_ptr; *)
Record optional_reference (T : ctype) : Type := Build { m_ptr : pointer }.

Arguments m_ptr {T} o.

(** The template argument of a wrapper's class. *)
Definition element_type {T} (w : optional_reference T) : ctype := T.

Abbreviation method T := (M (state (optional_reference T))) (only parsing).

(** *** Constructors *)

(** optional_reference() noexcept : m_ptr(nullptr) {} *)
Definition ctor {T} : M heap (optional_reference T) :=
  mret (Build T nullptr).

(** optional_reference(nullref_t) noexcept : m_ptr(nullptr) {} *)
Definition ctor_nullref {T} (_ : nullref_t) : M heap (optional_reference T) :=
  mret (Build T nullptr).

(** optional_reference(T& reference) noexcept
      : m_ptr(std::addressof(reference)) {} *)
Definition ctor_reference {T} (reference : loc) : M heap (optional_reference T) :=
  mret (Build T (addressof reference)).

(** optional_reference(T* reference) noexcept : m_ptr(reference) {} *)
Definition ctor_pointer {T} (reference : pointer) : M heap (optional_reference T) :=
  mret (Build T reference).

(** *** Access to the data member *)

(** Reading [m_ptr] inside a member function. *)
Definition get_m_ptr {T} : method T pointer :=
  fun s => (Returns (m_ptr (self s)), s).

(** The assignment [m_ptr = v] inside a member function whose
    cv-qualifier is [q]: in a [const] member function [m_ptr] is a
    [T* const] lvalue, and assigning to it does not compile. *)
Definition assign_m_ptr {T} (q : cv) (v : pointer) : method T unit :=
  match q with
  | Mutable => fun s => (Returns tt, St (Build T v) (mem s))
  | Const => ill_formed
  end.

(** *** Member functions *)

(** operator optional_reference<const T>() const noexcept {
      return optional_reference<const T>(this);
    }

    The argument is [this], of type [const optional_reference<T>*], and
    not [m_ptr].  Of the constructors of [optional_reference<const T>],
    the one from [const T*] does not accept it (the pointee types are
    unrelated), and the one from [const T&] accepts it only where a
    pointer converts to [T]: for [T = bool], by the boolean conversion,
    the reference binding to a temporary that lives until the end of the
    [return] statement.  For the other element types no constructor is
    viable. *)
Definition operator_optional_reference_const {T} (this : loc)
  : method T (optional_reference (add_const T)) :=
  match base T with
  | Tbool =>
      tmp ← lift (materialize this (Z.b2z (bool_of_pointer (addressof this))));
      w ← lift (ctor_reference tmp);
      lift (destroy tmp);;
      mret w
  | Tint | Tclass _ => ill_formed
  end.

(** operator bool() const noexcept { return m_ptr; } *)
Definition operator_bool {T} : method T bool :=
  p ← get_m_ptr; mret (bool_of_pointer p).

(** bool has_ref() const noexcept { return m_ptr; } *)
Definition has_ref {T} : method T bool :=
  p ← get_m_ptr; mret (bool_of_pointer p).

(** T& operator*() const noexcept { assert(m_ptr); return *m_ptr; } *)
Definition operator_star {T} (NDEBUG : bool) : method T loc :=
  c ← get_m_ptr;
  assert NDEBUG (bool_of_pointer c);;
  p ← get_m_ptr;
  deref p.

(** T& ref() const {
      if (!m_ptr) throw bad_optional_reference_access();
      return *m_ptr;
    } *)
Definition ref {T} : method T loc :=
  c ← get_m_ptr;
  if negb (bool_of_pointer c) then throw bad_optional_reference_access
  else p ← get_m_ptr; deref p.

(** T* operator->() const noexcept { assert(m_ptr); return m_ptr; } *)
Definition operator_arrow {T} (NDEBUG : bool) : method T pointer :=
  c ← get_m_ptr;
  assert NDEBUG (bool_of_pointer c);;
  get_m_ptr.

(** T* ptr() const noexcept { return m_ptr; } *)
Definition ptr {T} : method T pointer := get_m_ptr.

(** void reset() noexcept { m_ptr = nullptr; } *)
Definition reset {T} : method T unit := assign_m_ptr Mutable nullptr.

(** *** Factory functions *)

(** template <class T>
    optional_reference<T> opt_ref(T& reference) noexcept {
      return optional_reference<T>(reference);
    } *)
Definition opt_ref {T} (reference : loc) : M heap (optional_reference T) :=
  ctor_reference reference.

(** template <class T>
    optional_reference<const T> opt_cref(const T& reference) noexcept {
      return optional_reference<const T>(reference);
    } *)
Definition opt_cref {T} (reference : loc)
  : M heap (optional_reference (add_const T)) :=
  ctor_reference reference.

(** Template argument deduction for a call [opt_ref(x)] and [opt_cref(x)]
    with [x] an lvalue of type [A]: [T&] takes [A] whole, [const T&]
    takes [A] without its [const]. *)
Definition deduce_opt_ref (A : ctype) : ctype := A.
Definition deduce_opt_cref (A : ctype) : ctype := Ty Mutable (base A).

End Extended.

(** ** The class template of [src/unnamed/part_000] *)

Module Minimal.

(** private: T* m_ptr; *)
Record optional_reference (T : ctype) : Type := Build { m_ptr : pointer }.

Arguments m_ptr {T} o.

Abbreviation method T := (M (state (optional_reference T))) (only parsing).

(** optional_reference() noexcept : m_ptr(nullptr) {} *)
Definition ctor {T} : M heap (optional_reference T) :=
  mret (Build T nullptr).

(** optional_reference(nullref_t) noexcept : m_ptr(nullptr) {} *)
Definition ctor_nullref {T} (_ : nullref_t) : M heap (optional_reference T) :=
  mret (Build T nullptr).

(** optional_reference(T& reference) noexcept
      : m_ptr(std::addressof(reference)) {} *)
Definition ctor_reference {T} (reference : loc) : M heap (optional_reference T) :=
  mret (Build T (addressof reference)).

Definition get_m_ptr {T} : method T pointer :=
  fun s => (Returns (m_ptr (self s)), s).

(** As in [Extended]: [m_ptr = v] under the member function's
    cv-qualifier [q]. *)
Definition assign_m_ptr {T} (q : cv) (v : pointer) : method T unit :=
  match q with
  | Mutable => fun s => (Returns tt, St (Build T v) (mem s))
  | Const => ill_formed
  end.

(** The guard [#ifndef NDEBUG ... #endif] around a statement. *)
Definition ifndef_NDEBUG {S} (NDEBUG : bool) (c : M S unit) : M S unit :=
  if NDEBUG then mret tt else c.

(** explicit operator bool() const noexcept { return m_ptr; } *)
Definition operator_bool {T} : method T bool :=
  p ← get_m_ptr; mret (bool_of_pointer p).

(** bool has_ref() const noexcept { return m_ptr; } *)
Definition has_ref {T} : method T bool :=
  p ← get_m_ptr; mret (bool_of_pointer p).

(** T& operator*() const noexcept {
      #ifndef NDEBUG
      assert(m_ptr);
      #endif
      return *m_ptr;
    } *)
Definition operator_star {T} (NDEBUG : bool) : method T loc :=
  ifndef_NDEBUG NDEBUG (c ← get_m_ptr; assert NDEBUG (bool_of_pointer c));;
  p ← get_m_ptr;
  deref p.

(** T& ref() const {
      if (!m_ptr) throw bad_optional_reference_access();
      return *m_ptr;
    } *)
Definition ref {T} : method T loc :=
  c ← get_m_ptr;
  if negb (bool_of_pointer c) then throw bad_optional_reference_access
  else p ← get_m_ptr; deref p.

(** T* operator->() const noexcept {
      #ifndef NDEBUG
      assert(m_ptr);
      #endif
      return m_ptr;
    } *)
Definition operator_arrow {T} (NDEBUG : bool) : method T pointer :=
  ifndef_NDEBUG NDEBUG (c ← get_m_ptr; assert NDEBUG (bool_of_pointer c));;
  get_m_ptr.

(** void reset() const noexcept { m_ptr = nullptr; } *)
Definition reset {T} : method T unit := assign_m_ptr Const nullptr.

(** opt_ref and opt_cref, as in [Extended]. *)
Definition opt_ref {T} (reference : loc) : M heap (optional_reference T) :=
  ctor_reference reference.

Definition opt_cref {T} (reference : loc)
  : M heap (optional_reference (add_const T)) :=
  ctor_reference reference.

End Minimal.

(** ** The two versions side by side *)

(** The wrapper of [src/unnamed/part_000] holding the same pointer. *)
Definition minimal_of {T} (w : Extended.optional_reference T)
  : Minimal.optional_reference T :=
  Minimal.Build T (Extended.m_ptr w).

Definition minimal_state {T} (s : state (Extended.optional_reference T))
  : state (Minimal.optional_reference T) :=
  St (minimal_of (self s)) (mem s).

(** The outcome and final state of an [Extended] call, seen on the
    [Minimal] side. *)
Definition seen_minimal {T A} (r : outcome A * state (Extended.optional_reference T))
  : outcome A * state (Minimal.optional_reference T) :=
  (fst r, minimal_state (snd r)).


(** ** A concrete state *)

(** A wrapper bound to an [int] object holding 42. *)
Definition present_int : state (Extended.optional_reference (Ty Mutable Tint)) :=
  St (Extended.Build _ (addressof 7)) {[ 7%positive := 42 ]}.

(** A wrapper still bound to an [int] object whose lifetime has ended. *)
Definition dangling_int : state (Extended.optional_reference (Ty Mutable Tint)) :=
  St (Extended.Build _ (addressof 7)) ∅.

(** * Properties *)

(** ** The monad and the primitive operations *)

Lemma bind_returns {S A B} (c : M S A) (k : A -> M S B) s a s' :
  c s = (Returns a, s') -> (c ≫= k) s = k a s'.
Proof. intros E. unfold mbind, M_bind, bind. now rewrite E. Qed.

Lemma bool_of_pointer_addressof (x : loc) : bool_of_pointer (addressof x) = true.
Proof. reflexivity. Qed.

Lemma bool_of_pointer_true (p : pointer) :
  bool_of_pointer p = true <-> p <> nullptr.
Proof.
  unfold bool_of_pointer, nullptr. rewrite negb_true_iff, N.eqb_neq. tauto.
Qed.

Lemma bool_of_pointer_false (p : pointer) :
  bool_of_pointer p = false <-> p = nullptr.
Proof.
  unfold bool_of_pointer, nullptr. rewrite negb_false_iff, N.eqb_eq. tauto.
Qed.

Lemma pointer_cases (p : pointer) : p = nullptr \/ exists x : loc, p = addressof x.
Proof. destruct p as [|x]; [now left | right; now exists x]. Qed.

(** A temporary is created at a location that holds no object, and it is not
    the object the member function was called on. *)
Lemma materialize_fresh (this : loc) (v : Z) (h : heap) :
  exists tmp : loc,
    materialize this v h = (Returns tmp, <[tmp := v]> h) /\
    h !! tmp = None /\ tmp <> this.
Proof.
  exists (fresh ({[this]} ∪ dom h)). split; [reflexivity|].
  pose proof (is_fresh ({[this]} ∪ dom h)) as Hf.
  split.
  - apply not_elem_of_dom. set_solver.
  - set_solver.
Qed.

(** ** The member functions of [src/optional_reference.hpp] *)

Section ExtendedFacts.

Import Extended.

Context {T : ctype}.

Implicit Types (s : state (optional_reference T)) (h : heap)
  (x : loc) (p : pointer).

(** Every [const] member function that only reads [m_ptr] leaves the
    wrapper and the heap as they were. *)
Lemma has_ref_run s : has_ref s = (Returns (bool_of_pointer (m_ptr (self s))), s).
Proof. reflexivity. Qed.

Lemma operator_bool_run s :
  operator_bool s = (Returns (bool_of_pointer (m_ptr (self s))), s).
Proof. reflexivity. Qed.

Lemma ptr_run s : ptr s = (Returns (m_ptr (self s)), s).
Proof. reflexivity. Qed.

Lemma ref_absent s :
  m_ptr (self s) = nullptr -> ref s = (Throws bad_optional_reference_access, s).
Proof. destruct s as [[p] h]. cbn. intros ->. reflexivity. Qed.

Lemma ref_present s x :
  m_ptr (self s) = addressof x -> ref s = (Returns x, s).
Proof. destruct s as [[p] h]. cbn. intros ->. reflexivity. Qed.

Lemma operator_star_present NDEBUG s x :
  m_ptr (self s) = addressof x -> operator_star NDEBUG s = (Returns x, s).
Proof.
  destruct s as [[p] h]. cbn. intros ->. now destruct NDEBUG.
Qed.

Lemma operator_arrow_present NDEBUG s x :
  m_ptr (self s) = addressof x ->
  operator_arrow NDEBUG s = (Returns (addressof x), s).
Proof.
  destruct s as [[p] h]. cbn. intros ->. now destruct NDEBUG.
Qed.

(** On an empty wrapper the unchecked accesses never throw: a debug build
    aborts on the assertion; with [NDEBUG], [operator*] dereferences the
    null pointer and [operator->] returns it. *)
Lemma operator_star_absent NDEBUG s :
  m_ptr (self s) = nullptr ->
  operator_star NDEBUG s = (if NDEBUG then Undefined else Aborts, s).
Proof.
  destruct s as [[p] h]. cbn. intros ->. now destruct NDEBUG.
Qed.

Lemma operator_arrow_absent NDEBUG s :
  m_ptr (self s) = nullptr ->
  operator_arrow NDEBUG s = (if NDEBUG then Returns nullptr else Aborts, s).
Proof.
  destruct s as [[p] h]. cbn. intros ->. now destruct NDEBUG.
Qed.

Lemma reset_run s : reset s = (Returns tt, St (Build T nullptr) (mem s)).
Proof. reflexivity. Qed.

(** C2: [ref] throws [bad_optional_reference_access] exactly when the
    wrapper is absent (its [has_ref] is false, its [m_ptr] is null), and
    whatever its outcome it leaves the wrapper's stored address and the
    heap unchanged; on a present wrapper it returns. *)
Theorem ref_throws_iff_absent s :
  (fst (ref s) = Throws bad_optional_reference_access
   <-> fst (has_ref s) = Returns false) /\
  (fst (ref s) = Throws bad_optional_reference_access
   <-> m_ptr (self s) = nullptr) /\
  (fst (has_ref s) = Returns true <-> exists x, fst (ref s) = Returns x) /\
  snd (ref s) = s /\
  m_ptr (self (snd (ref s))) = m_ptr (self s) /\
  mem (snd (ref s)) = mem s.
Proof.
  rewrite has_ref_run. cbn [fst].
  destruct (pointer_cases (m_ptr (self s))) as [E | [x E]].
  - rewrite (ref_absent s E), E. cbn. split_and!; try done.
    split; [discriminate | intros [x Hx]; discriminate Hx].
  - rewrite (ref_present s x E), E. cbn. split_and!; try done.
    split; [intros _; now exists x | reflexivity].
Qed.

(** C3: a wrapper constructed from a reference to [x] is constructed
    without failure or effect, reports present, and [ref] and [operator*]
    (in debug and in [NDEBUG] builds) both return the lvalue [x] itself. *)
Theorem ctor_reference_is_present_and_refers_to_x x h NDEBUG :
  let w := Build T (addressof x) in
  ctor_reference x h = (Returns w, h) /\
  has_ref (St w h) = (Returns true, St w h) /\
  operator_bool (St w h) = (Returns true, St w h) /\
  ref (St w h) = (Returns x, St w h) /\
  operator_star NDEBUG (St w h) = (Returns x, St w h).
Proof.
  intros w. split_and!.
  - reflexivity.
  - apply has_ref_run.
  - apply operator_bool_run.
  - now apply ref_present.
  - now apply operator_star_present.
Qed.

(** C5: [reset] returns without failure; afterwards [has_ref] is false,
    whatever the wrapper held; the heap is untouched; and on an absent
    wrapper the whole state after [reset] is the state before. *)
Theorem reset_makes_absent s h :
  (exists s',
      reset s = (Returns tt, s') /\
      has_ref s' = (Returns false, s') /\
      operator_bool s' = (Returns false, s') /\
      mem s' = mem s) /\
  reset (St (Build T nullptr) h) = (Returns tt, St (Build T nullptr) h).
Proof.
  split; [|reflexivity].
  exists (St (Build T nullptr) (mem s)). now rewrite reset_run.
Qed.

(** C6: a wrapper constructed from a raw pointer [p] (the constructor
    cannot fail) reports present exactly when [p] is not null. *)
Theorem ctor_pointer_present_iff_nonnull p h :
  exists (w : optional_reference T) (b : bool),
    ctor_pointer p h = (Returns w, h) /\
    has_ref (St w h) = (Returns b, St w h) /\
    operator_bool (St w h) = (Returns b, St w h) /\
    (b = true <-> p <> nullptr) /\
    (b = false <-> p = nullptr).
Proof.
  exists (Build T p), (bool_of_pointer p). split_and!; try reflexivity.
  - apply bool_of_pointer_true.
  - apply bool_of_pointer_false.
Qed.

(** C9: the default constructor and the constructor from [nullref] both
    give a wrapper for which [has_ref] and the conversion to [bool] are
    false. *)
Theorem ctor_and_ctor_nullref_report_absent h :
  exists w w' : optional_reference T,
    ctor h = (Returns w, h) /\
    ctor_nullref nullref h = (Returns w', h) /\
    has_ref (St w h) = (Returns false, St w h) /\
    operator_bool (St w h) = (Returns false, St w h) /\
    has_ref (St w' h) = (Returns false, St w' h) /\
    operator_bool (St w' h) = (Returns false, St w' h).
Proof. exists (Build T nullptr), (Build T nullptr). split_and!; reflexivity. Qed.

(** C10: [ptr] gives back the pointer the wrapper was constructed from,
    null included, and the address of the object for a wrapper constructed
    from a reference; [ptr] returns on every wrapper, whatever it holds,
    and changes nothing. *)
Theorem ptr_roundtrip p x h s :
  (exists w : optional_reference T,
      ctor_pointer p h = (Returns w, h) /\
      ptr (St w h) = (Returns p, St w h)) /\
  (exists w : optional_reference T,
      ctor_reference x h = (Returns w, h) /\
      ptr (St w h) = (Returns (addressof x), St w h)) /\
  ptr s = (Returns (m_ptr (self s)), s).
Proof.
  split_and!.
  - now exists (Build T p).
  - now exists (Build T (addressof x)).
  - apply ptr_run.
Qed.

(** C8: on a present wrapper, [operator*] returns the lvalue of the
    referenced object and [operator->] its address, in debug and in
    [NDEBUG] builds alike; the assertion of the debug build holds; nothing
    is thrown and nothing changes; reading through [*w] reads the object
    at the stored address. *)
Theorem unchecked_access_when_present NDEBUG s :
  has_ref s = (Returns true, s) ->
  exists x,
    m_ptr (self s) = addressof x /\
    operator_star NDEBUG s = (Returns x, s) /\
    operator_arrow NDEBUG s = (Returns (addressof x), s) /\
    assert false (bool_of_pointer (m_ptr (self s))) s = (Returns tt, s) /\
    (l ← operator_star NDEBUG; lift (load l)) s = lift (load x) s.
Proof.
  rewrite has_ref_run. intros H. injection H as H.
  destruct (pointer_cases (m_ptr (self s))) as [E | [x E]].
  - rewrite E in H. discriminate H.
  - exists x. split_and!.
    + exact E.
    + now apply operator_star_present.
    + now apply operator_arrow_present.
    + now rewrite H.
    + now rewrite (bind_returns _ _ _ _ _ (operator_star_present NDEBUG s x E)).
Qed.

End ExtendedFacts.

(** The scenario of the README: [int value = 42; opt1 = value;] then
    [opt1.ref()] and [*opt1] read 42. *)
Example readme_scenario :
  let h : heap := {[ 7%positive := 42 ]} in
  let w : Extended.optional_reference (Ty Mutable Tint) :=
    Extended.Build _ (addressof 7) in
  Extended.opt_ref 7%positive h = (Returns w, h) /\
  Extended.has_ref (St w h) = (Returns true, St w h) /\
  (l ← Extended.ref; lift (load l)) (St w h) = (Returns 42, St w h) /\
  (l ← Extended.operator_star false; lift (load l)) (St w h)
  = (Returns 42, St w h).
Proof. cbn. split_and!; reflexivity. Qed.

Lemma unchecked_access_when_present_witness :
  Extended.has_ref present_int = (Returns true, present_int) /\
  exists x,
    Extended.m_ptr (self present_int) = addressof x /\
    Extended.operator_star false present_int = (Returns x, present_int) /\
    Extended.operator_arrow false present_int
    = (Returns (addressof x), present_int) /\
    assert false (bool_of_pointer (Extended.m_ptr (self present_int))) present_int
    = (Returns tt, present_int) /\
    (l ← Extended.operator_star false; lift (load l)) present_int
    = lift (load x) present_int.
Proof.
  split; [reflexivity|].
  apply (unchecked_access_when_present false present_int). reflexivity.
Defined.

(** ** The factory functions *)

(** C7: [opt_ref(x)] is the construction from [x]: the same outcome, the
    same wrapper, no effect, hence the same result in every continuation;
    its wrapper has the element type of [x] as it is.  [opt_cref(x)]
    returns, without effect, a wrapper over [const T] bound to [x], for [x]
    of mutable and of [const] type alike. *)
Theorem opt_ref_and_opt_cref (A : ctype) (x : loc) (h : heap) :
  let T := Extended.deduce_opt_ref A in
  let U := Extended.deduce_opt_cref A in
  (Extended.opt_ref (T:=T) x h = Extended.ctor_reference x h /\
   Extended.opt_ref (T:=T) x h = (Returns (Extended.Build T (addressof x)), h) /\
   (forall B (k : Extended.optional_reference T -> M heap B),
       (Extended.opt_ref x ≫= k) h = (Extended.ctor_reference x ≫= k) h) /\
   Extended.element_type (Extended.Build T (addressof x)) = A) /\
  (exists w : Extended.optional_reference (add_const U),
      Extended.opt_cref (T:=U) x h = (Returns w, h) /\
      Extended.element_type w = Ty Const (base A) /\
      qual (Extended.element_type w) = Const /\
      Extended.m_ptr w = addressof x /\
      Extended.has_ref (St w h) = (Returns true, St w h) /\
      Extended.ref (St w h) = (Returns x, St w h)).
Proof.
  intros T U. split.
  - split_and!; reflexivity.
  - exists (Extended.Build (add_const U) (addressof x)).
    split_and!; reflexivity.
Qed.

(** ** The const conversion operator *)

(** For an element type [bool] the conversion returns a wrapper bound to a
    temporary that is gone when it returns: never the wrapper's referent. *)
Lemma operator_optional_reference_const_bool q (this : loc)
    (s : state (Extended.optional_reference (Ty q Tbool))) :
  exists tmp : loc,
    Extended.operator_optional_reference_const this s
    = (Returns (Extended.Build _ (addressof tmp)), s) /\
    mem s !! tmp = None /\ tmp <> this.
Proof.
  destruct s as [w h].
  destruct (materialize_fresh this 1 h) as (tmp & E & Hn & Hd).
  exists tmp. split; [|now split].
  unfold Extended.operator_optional_reference_const. cbn [base].
  unfold mbind, M_bind, bind, lift. cbn [mem self].
  rewrite bool_of_pointer_addressof. cbn [Z.b2z]. rewrite E.
  cbn. do 2 f_equal. rewrite delete_insert_eq. now apply delete_id.
Qed.

Lemma operator_optional_reference_const_not_bool T (this : loc)
    (s : state (Extended.optional_reference T)) :
  base T <> Tbool ->
  Extended.operator_optional_reference_const this s = (IllFormed, s).
Proof.
  intros H. unfold Extended.operator_optional_reference_const.
  destruct (base T); [congruence | reflexivity | reflexivity].
Qed.

(** C1, as the code has it: the operator passes [this] where the stored
    pointer was meant.  The conversion of an absent
    [optional_reference<bool>] reports present, and the conversion of an
    [optional_reference<int>] bound to [x] does not compile. *)
Theorem const_conversion_does_not_preserve_presence (this x : loc) (h : heap) :
  let w := Extended.Build (Ty Mutable Tbool) nullptr in
  let v := Extended.Build (Ty Mutable Tint) (addressof x) in
  Extended.has_ref (St w h) = (Returns false, St w h) /\
  (exists w',
      Extended.operator_optional_reference_const this (St w h)
      = (Returns w', St w h) /\
      Extended.has_ref (St w' h) = (Returns true, St w' h)) /\
  Extended.operator_optional_reference_const this (St v h) = (IllFormed, St v h).
Proof.
  intros w v. split_and!.
  - reflexivity.
  - destruct (operator_optional_reference_const_bool Mutable this (St w h))
      as (tmp & E & _).
    eexists. split; [exact E | reflexivity].
  - reflexivity.
Qed.

Lemma const_conversion_of_present_bool_refers_elsewhere q (this x : loc) (v : Z)
    (s : state (Extended.optional_reference (Ty q Tbool))) :
  Extended.m_ptr (self s) = addressof x ->
  mem s !! x = Some v ->
  exists w',
    Extended.operator_optional_reference_const this s = (Returns w', s) /\
    Extended.m_ptr w' <> Extended.m_ptr (self s).
Proof.
  intros E Hx.
  destruct (operator_optional_reference_const_bool q this s) as (tmp & R & Hn & _).
  eexists. split; [exact R|].
  cbn. rewrite E. unfold addressof. intros [= ->]. congruence.
Qed.

(** ** The two versions of the class, side by side *)

Section Versions.

Context {T : ctype}.

Implicit Types (s : state (Extended.optional_reference T)) (h : heap).






(** C4, as the code has it: [reset] is where the two versions part.  In
    [src/unnamed/part_000] it is declared [const] and its assignment to
    [m_ptr] does not compile, so the wrapper is never emptied; in
    [src/optional_reference.hpp] the same call returns and leaves the
    wrapper absent. *)
Theorem versions_differ_on_reset s :
  Extended.reset s = (Returns tt, St (Extended.Build T nullptr) (mem s)) /\
  Minimal.reset (minimal_state s) = (IllFormed, minimal_state s) /\
  Minimal.reset (minimal_state s) <> seen_minimal (Extended.reset s).
Proof. split_and!; [reflexivity | reflexivity | discriminate]. Qed.

End Versions.

(** ** Unchecked access, and how the member functions relate *)

Section ExtendedAccess.

Import Extended.

Context {T : ctype}.

Implicit Types (s : state (optional_reference T)) (h : heap)
  (x : loc) (p : pointer).

(** X1: [operator*] never throws and never changes the wrapper or the heap;
    on an empty wrapper a debug build aborts on the assertion and an
    [NDEBUG] build dereferences the null pointer. *)
Theorem operator_star_unchecked NDEBUG s h e :
  fst (operator_star NDEBUG s) <> Throws e /\
  snd (operator_star NDEBUG s) = s /\
  operator_star NDEBUG (St (Build T nullptr) h)
  = (if NDEBUG then Undefined else Aborts, St (Build T nullptr) h).
Proof.
  split_and!.
  - destruct (pointer_cases (m_ptr (self s))) as [E | [x E]].
    + rewrite (operator_star_absent NDEBUG s E). now destruct NDEBUG.
    + now rewrite (operator_star_present NDEBUG s x E).
  - destruct (pointer_cases (m_ptr (self s))) as [E | [x E]].
    + now rewrite (operator_star_absent NDEBUG s E).
    + now rewrite (operator_star_present NDEBUG s x E).
  - now apply operator_star_absent.
Qed.

(** X2: [operator->] never throws and never changes the wrapper or the
    heap; on an empty wrapper a debug build aborts on the assertion and an
    [NDEBUG] build returns [nullptr]. *)
Theorem operator_arrow_unchecked NDEBUG s h e :
  fst (operator_arrow NDEBUG s) <> Throws e /\
  snd (operator_arrow NDEBUG s) = s /\
  operator_arrow NDEBUG (St (Build T nullptr) h)
  = (if NDEBUG then Returns nullptr else Aborts, St (Build T nullptr) h).
Proof.
  split_and!.
  - destruct (pointer_cases (m_ptr (self s))) as [E | [x E]].
    + rewrite (operator_arrow_absent NDEBUG s E). now destruct NDEBUG.
    + now rewrite (operator_arrow_present NDEBUG s x E).
  - destruct (pointer_cases (m_ptr (self s))) as [E | [x E]].
    + now rewrite (operator_arrow_absent NDEBUG s E).
    + now rewrite (operator_arrow_present NDEBUG s x E).
  - now apply operator_arrow_absent.
Qed.

(** X3: with [NDEBUG], [operator->] is [ptr]; in a debug build it is [ptr]
    wherever it returns, and it fails to return only by aborting on an empty
    wrapper. *)
Theorem operator_arrow_is_ptr s :
  operator_arrow true s = ptr s /\
  (operator_arrow false s = ptr s \/
   operator_arrow false s = (Aborts, s) /\ ptr s = (Returns nullptr, s)).
Proof.
  rewrite ptr_run.
  destruct (pointer_cases (m_ptr (self s))) as [E | [x E]].
  - rewrite !(operator_arrow_absent _ s E), E. split; [reflexivity|]. now right.
  - rewrite !(operator_arrow_present _ s x E), E. split; [reflexivity|]. now left.
Qed.

(** X4: [ref] and [operator*] return in the same cases and then the same
    lvalue, in both build modes; [operator->] returns that lvalue's
    address. *)
Theorem ref_and_operator_star_return_alike NDEBUG s x :
  (fst (ref s) = Returns x <-> fst (operator_star NDEBUG s) = Returns x) /\
  (fst (ref s) = Returns x <->
   fst (operator_arrow NDEBUG s) = Returns (addressof x)).
Proof.
  destruct (pointer_cases (m_ptr (self s))) as [E | [y E]].
  - rewrite (ref_absent s E), (operator_star_absent NDEBUG s E),
      (operator_arrow_absent NDEBUG s E).
    destruct NDEBUG; cbn; split; split; discriminate.
  - rewrite (ref_present s y E), (operator_star_present NDEBUG s y E),
      (operator_arrow_present NDEBUG s y E).
    cbn. unfold addressof. split; split; congruence.
Qed.

(** X5: rebuilding a wrapper from its own [ptr] gives the wrapper back,
    and the pointer constructor covers the three others: from [&x] it is the
    reference constructor, from [nullptr] the default and the [nullref]
    ones. *)
Theorem ctor_pointer_of_ptr s h x :
  (p ← ptr; lift (ctor_pointer p)) s = (Returns (self s), s) /\
  ctor_pointer (T:=T) (addressof x) h = ctor_reference x h /\
  ctor_pointer (T:=T) nullptr h = ctor h /\
  ctor_pointer (T:=T) nullptr h = ctor_nullref nullref h.
Proof.
  split_and!; try reflexivity.
  destruct s as [[p] h']. reflexivity.
Qed.

(** X6: after [reset], whatever the wrapper held, [ref] throws, [ptr]
    returns [nullptr], [operator*] aborts in a debug build, and a second
    [reset] changes nothing more. *)
Theorem access_after_reset s :
  let s' := St (Build T nullptr) (mem s) in
  (reset;; ref) s = (Throws bad_optional_reference_access, s') /\
  (reset;; ptr) s = (Returns nullptr, s') /\
  (reset;; has_ref) s = (Returns false, s') /\
  (reset;; operator_star false) s = (Aborts, s') /\
  (reset;; operator_arrow true) s = (Returns nullptr, s') /\
  (reset;; reset) s = reset s.
Proof. intros s'. split_and!; reflexivity. Qed.

(** X7: presence is the stored pointer being non-null: [has_ref] and the
    conversion to [bool] are the same function, and they return true exactly
    when [ptr] returns something other than [nullptr]. *)
Theorem presence_is_nonnull_pointer s :
  has_ref s = operator_bool s /\
  (fst (has_ref s) = Returns true <-> fst (ptr s) <> Returns nullptr) /\
  (fst (has_ref s) = Returns false <-> fst (ptr s) = Returns nullptr).
Proof.
  rewrite has_ref_run, operator_bool_run, ptr_run. cbn [fst].
  destruct (pointer_cases (m_ptr (self s))) as [E | [x E]]; rewrite E.
  - split_and!; [reflexivity | split; [discriminate | congruence] | done].
  - split_and!; [reflexivity | split; [discriminate | reflexivity] |
                 split; discriminate].
Qed.

End ExtendedAccess.

(** ** What the member functions leave alone *)

(** X8: the result of the const conversion operator, for every element
    type: for [bool] a wrapper that reports present, bound to a location
    that holds no object and is not the converted wrapper; for any other
    type the call does not compile.  It never returns an absent wrapper and
    never changes the wrapper or the heap. *)
Theorem const_conversion_result T (this : loc)
    (s : state (Extended.optional_reference T)) :
  snd (Extended.operator_optional_reference_const this s) = s /\
  fst (Extended.operator_optional_reference_const this s)
  <> Returns (Extended.Build (add_const T) nullptr) /\
  match base T with
  | Tbool =>
      exists tmp : loc,
        fst (Extended.operator_optional_reference_const this s)
        = Returns (Extended.Build (add_const T) (addressof tmp)) /\
        mem s !! tmp = None /\ tmp <> this /\
        Extended.has_ref (St (Extended.Build (add_const T) (addressof tmp)) (mem s))
        = (Returns true,
           St (Extended.Build (add_const T) (addressof tmp)) (mem s))
  | Tint | Tclass _ =>
      fst (Extended.operator_optional_reference_const this s) = IllFormed
  end.
Proof.
  destruct T as [q [| |name]].
  - destruct (operator_optional_reference_const_bool q this s)
      as (tmp & E & Hn & Hd).
    rewrite E. cbn [fst snd base]. split_and!; [reflexivity | discriminate |].
    exists tmp. now split_and!.
  - now split_and!.
  - now split_and!.
Qed.

(** X9: a wrapper obtained from an [optional_reference<bool>] by the const
    conversion operator cannot be read: [ref] and [operator*] return an
    lvalue whose object is gone, so that reading it is undefined, whatever
    the converted wrapper held. *)
Theorem const_conversion_of_bool_dangles q (this : loc) NDEBUG
    (s : state (Extended.optional_reference (Ty q Tbool))) :
  exists w',
    Extended.operator_optional_reference_const this s = (Returns w', s) /\
    (l ← Extended.ref; lift (load l)) (St w' (mem s))
    = (Undefined, St w' (mem s)) /\
    (l ← Extended.operator_star NDEBUG; lift (load l)) (St w' (mem s))
    = (Undefined, St w' (mem s)).
Proof.
  destruct (operator_optional_reference_const_bool q this s)
    as (tmp & E & Hn & _).
  eexists. split; [exact E|].
  split.
  - erewrite bind_returns by (now apply ref_present).
    unfold lift, load. cbn [mem self]. now rewrite Hn.
  - erewrite bind_returns by (now apply (operator_star_present NDEBUG)).
    unfold lift, load. cbn [mem self]. now rewrite Hn.
Qed.


(** X11: [ref] checks the pointer against null and nothing else: on a
    wrapper bound to an object that no longer exists it returns the stale
    lvalue without throwing, and reading that lvalue is undefined. *)
Theorem ref_does_not_check_lifetime T (x : loc) (h : heap) :
  h !! x = None ->
  let w := Extended.Build T (addressof x) in
  Extended.has_ref (St w h) = (Returns true, St w h) /\
  Extended.ref (St w h) = (Returns x, St w h) /\
  (l ← Extended.ref; lift (load l)) (St w h) = (Undefined, St w h).
Proof.
  intros Hx w. split_and!; [reflexivity | reflexivity |].
  erewrite bind_returns by reflexivity.
  unfold lift, load. cbn [mem self]. now rewrite Hx.
Qed.

Lemma ref_does_not_check_lifetime_witness :
  (∅ : heap) !! 7%positive = None /\
  Extended.has_ref dangling_int = (Returns true, dangling_int) /\
  Extended.ref dangling_int = (Returns 7%positive, dangling_int) /\
  (l ← Extended.ref; lift (load l)) dangling_int = (Undefined, dangling_int).
Proof.
  split; [reflexivity|].
  apply (ref_does_not_check_lifetime (Ty Mutable Tint) 7%positive ∅).
  reflexivity.
Defined.

(** ** The member functions of [src/unnamed/part_000] *)

Section MinimalFacts.

Context {T : ctype}.

Implicit Types (s : state (Minimal.optional_reference T)) (h : heap) (x : loc).

(** X12: in [src/unnamed/part_000], [ref] throws exactly on an empty
    wrapper and returns the bound lvalue otherwise; [operator*] and
    [operator->] never throw: on an empty wrapper they abort in a debug
    build, and with [NDEBUG] the one is undefined and the other returns
    [nullptr]. *)
Theorem minimal_access NDEBUG h x :
  let empty := St (Minimal.Build T nullptr) h in
  let bound := St (Minimal.Build T (addressof x)) h in
  Minimal.ref empty = (Throws bad_optional_reference_access, empty) /\
  Minimal.operator_star NDEBUG empty
  = (if NDEBUG then Undefined else Aborts, empty) /\
  Minimal.operator_arrow NDEBUG empty
  = (if NDEBUG then Returns nullptr else Aborts, empty) /\
  Minimal.has_ref empty = (Returns false, empty) /\
  Minimal.ref bound = (Returns x, bound) /\
  Minimal.operator_star NDEBUG bound = (Returns x, bound) /\
  Minimal.operator_arrow NDEBUG bound = (Returns (addressof x), bound) /\
  Minimal.has_ref bound = (Returns true, bound).
Proof. intros empty bound. destruct NDEBUG; split_and!; reflexivity. Qed.



End MinimalFacts.

